(** * Billiard-hall scoreboard: the table state machine of [server.js]

    The Express handlers of [src/server.js] are embedded as pure functions
    that take the request fields and the database and return the JSON reply
    together with the database after the handler's queries have run.

    Modelling decisions, all taken from the source:
    - the database holds the [tables] rows, keyed by [table_num], and the
      append-only [games] log; [SELECT ... WHERE table_num = ?] returns the
      array of matching rows and [UPDATE ... WHERE table_num = ?] rewrites
      the matching row, touching nothing when there is none;
    - integer columns are unbounded integers (the schema is not part of the
      source, and JavaScript computes [inning + 1] exactly);
    - a nullable column is an [option]; an absent request field is [None];
    - the column [current_turn] holds ['player1'], ['player2'] or NULL, the
      only values the handlers ever write to it;
    - [NOW()] is the clock reading handed to [setColors] as [now];
    - [rows[0]] on an empty result is [undefined], and reading a property
      of it throws; the handler's [catch] turns that into the 500 reply;
    - queries themselves are taken to succeed;
    - the [users] rows are a store of their own, which only register and
      login read or write; how its [nickname] column compares with a
      string and what its [wins] and [losses] columns default to is left
      open, since the schema is not part of the source. *)

From Stdlib Require Import ZArith.
From stdpp Require Import gmap strings list fin_maps sorting.

Local Open Scope Z_scope.

Module Billiard.

(** ** Data model *)

(** The values of the [status] column. *)
Inductive table_status := available | waiting | occupied.

(** The values of the [current_turn] column: a role, not a nickname. *)
Inductive role := Player1 | Player2.

#[global] Instance table_status_eq_dec : EqDecision table_status.
Proof. solve_decision. Defined.

#[global] Instance role_eq_dec : EqDecision role.
Proof. solve_decision. Defined.

(** A row of [tables]; the key [table_num] is the key of the map below. *)
Record table := Table {
  status : table_status;
  player1 : option string;
  player2 : option string;
  score1 : Z;
  score2 : Z;
  target1 : Z;
  target2 : Z;
  color1 : option string;
  color2 : option string;
  current_turn : option role;
  inning : Z;
  start_time : option Z
}.

(** A row of [games]. *)
Record game := Game {
  game_table_num : Z;
  game_player1 : option string;
  game_player2 : option string;
  game_score1 : Z;
  game_score2 : Z;
  game_winner : option string;
  game_start_time : option Z
}.

Record db := Db {
  tables : gmap Z table;
  games : list game
}.

(** What a handler sends back. *)
Inductive reply :=
| Ack                        (* 200, success: true, message *)
| Started (starter : role)   (* 200, setColors: currentTurn *)
| GameOver (winner : role)   (* 200, nextTurn: gameOver: true, winner *)
| TurnPassed                 (* 200, nextTurn: gameOver: false *)
| InvalidInput               (* 400, a required field is missing *)
| NotFound                   (* 404, no such table *)
| InvalidState               (* 400, the table is in the wrong status *)
| InternalError.             (* 500, sent from the catch block *)

Definition http_status (r : reply) : Z :=
  match r with
  | Ack | Started _ | GameOver _ | TurnPassed => 200
  | InvalidInput | InvalidState => 400
  | NotFound => 404
  | InternalError => 500
  end.

(** ** Queries *)

(** [SELECT ... FROM tables WHERE table_num = ?] *)
Definition select_rows (d : db) (tableNum : Z) : list table :=
  option_list (tables d !! tableNum).

(** [UPDATE tables SET ... WHERE table_num = ?] *)
Definition update_rows (set : table → table) (tableNum : Z) (d : db) : db :=
  {| tables := alter set tableNum (tables d); games := games d |}.

(** [INSERT INTO games ... VALUES ...] *)
Definition insert_game (g : game) (d : db) : db :=
  {| tables := tables d; games := games d ++ [g] |}.

(** ** The SET clauses *)

(** The reset shared by [endGame] and [cancelRoom]. *)
Definition reset_table (t : table) : table :=
  {| status := available;
     player1 := None; player2 := None;
     score1 := 0; score2 := 0;
     target1 := 0; target2 := 0;
     color1 := None; color2 := None;
     current_turn := None;
     inning := 0;
     start_time := None |}.

Definition set_room (nickname : option string) (target : Z) (t : table) : table :=
  {| status := waiting;
     player1 := nickname; player2 := player2 t;
     score1 := score1 t; score2 := score2 t;
     target1 := target; target2 := target2 t;
     color1 := color1 t; color2 := color2 t;
     current_turn := current_turn t;
     inning := inning t;
     start_time := start_time t |}.

Definition set_player2 (nickname : option string) (t : table) : table :=
  {| status := status t;
     player1 := player1 t; player2 := nickname;
     score1 := score1 t; score2 := score2 t;
     target1 := target1 t; target2 := target2 t;
     color1 := color1 t; color2 := color2 t;
     current_turn := current_turn t;
     inning := inning t;
     start_time := start_time t |}.

Definition set_target2 (target : Z) (t : table) : table :=
  {| status := status t;
     player1 := player1 t; player2 := player2 t;
     score1 := score1 t; score2 := score2 t;
     target1 := target1 t; target2 := target;
     color1 := color1 t; color2 := color2 t;
     current_turn := current_turn t;
     inning := inning t;
     start_time := start_time t |}.

Definition set_game_start (c1 c2 : option string) (starter : role) (now : Z)
    (t : table) : table :=
  {| status := occupied;
     player1 := player1 t; player2 := player2 t;
     score1 := score1 t; score2 := score2 t;
     target1 := target1 t; target2 := target2 t;
     color1 := c1; color2 := c2;
     current_turn := Some starter;
     inning := 1;
     start_time := Some now |}.

Definition set_score1 (score : Z) (t : table) : table :=
  {| status := status t;
     player1 := player1 t; player2 := player2 t;
     score1 := score; score2 := score2 t;
     target1 := target1 t; target2 := target2 t;
     color1 := color1 t; color2 := color2 t;
     current_turn := current_turn t;
     inning := inning t;
     start_time := start_time t |}.

Definition set_score2 (score : Z) (t : table) : table :=
  {| status := status t;
     player1 := player1 t; player2 := player2 t;
     score1 := score1 t; score2 := score;
     target1 := target1 t; target2 := target2 t;
     color1 := color1 t; color2 := color2 t;
     current_turn := current_turn t;
     inning := inning t;
     start_time := start_time t |}.

Definition set_turn (turn : role) (inn : Z) (t : table) : table :=
  {| status := status t;
     player1 := player1 t; player2 := player2 t;
     score1 := score1 t; score2 := score2 t;
     target1 := target1 t; target2 := target2 t;
     color1 := color1 t; color2 := color2 t;
     current_turn := Some turn;
     inning := inn;
     start_time := start_time t |}.

(** ** Request fields *)

(** [!tableNum]: the field is absent or the number 0. *)
Definition missing_num (o : option Z) : bool :=
  match o with
  | Some n => n =? 0
  | None => true
  end.

(** [!nickname]: the field is absent or the empty string. *)
Definition missing_str (o : option string) : bool :=
  match o with
  | Some s => bool_decide (s = EmptyString)
  | None => true
  end.

(** ** Handlers *)

(** POST /api/createRoom; [target] defaults to 25. *)
Definition createRoom (tableNum : option Z) (nickname : option string)
    (target : option Z) (d : db) : reply * db :=
  let target := default 25 target in
  if missing_num tableNum || missing_str nickname then (InvalidInput, d)
  else
    let tableNum := default 0 tableNum in
    let rows := select_rows d tableNum in
    match rows with
    | [] => (NotFound, d)
    | row0 :: _ =>
        if bool_decide (status row0 ≠ available) then (InvalidState, d)
        else (Ack, update_rows (set_room nickname target) tableNum d)
    end.

(** POST /api/joinRoom *)
Definition joinRoom (tableNum : Z) (nickname : option string) (d : db)
    : reply * db :=
  let rows := select_rows d tableNum in
  match rows with
  | [] => (InvalidState, d)
  | row0 :: _ =>
      if bool_decide (status row0 ≠ waiting) then (InvalidState, d)
      else (Ack, update_rows (set_player2 nickname) tableNum d)
  end.

(** POST /api/approveJoin; [target] defaults to 20. *)
Definition approveJoin (tableNum : Z) (target : option Z) (d : db)
    : reply * db :=
  let target := default 20 target in
  (Ack, update_rows (set_target2 target) tableNum d).

(** POST /api/setColors *)
Definition setColors (tableNum : Z) (c1 c2 : option string) (now : Z) (d : db)
    : reply * db :=
  let starter :=
    if bool_decide (c2 = Some "white"%string) then Player2 else Player1 in
  (Started starter, update_rows (set_game_start c1 c2 starter now) tableNum d).

(** POST /api/updateScore *)
Definition updateScore (tableNum : Z) (score : Z) (d : db) : reply * db :=
  let rows := select_rows d tableNum in
  match head rows with
  | None => (InternalError, d)
  | Some row0 =>
      let col :=
        if bool_decide (current_turn row0 = Some Player1)
        then set_score1 else set_score2 in
      (Ack, update_rows (col score) tableNum d)
  end.

(** POST /api/nextTurn *)
Definition nextTurn (tableNum : Z) (d : db) : reply * db :=
  let rows := select_rows d tableNum in
  match head rows with
  | None => (InternalError, d)
  | Some table =>
      if score1 table >=? target1 table then (GameOver Player1, d)
      else if score2 table >=? target2 table then (GameOver Player2, d)
      else
        let nextTurn :=
          if bool_decide (current_turn table = Some Player1)
          then Player2 else Player1 in
        let nextInning :=
          if bool_decide (nextTurn = Player1)
          then inning table + 1 else inning table in
        (TurnPassed, update_rows (set_turn nextTurn nextInning) tableNum d)
  end.

(** POST /api/endGame; the selected row's [table_num] is [tableNum]. *)
Definition endGame (tableNum : Z) (d : db) : reply * db :=
  let rows := select_rows d tableNum in
  match head rows with
  | None => (InternalError, d)
  | Some table =>
      let winner :=
        if score1 table >=? target1 table
        then player1 table else player2 table in
      let d1 :=
        insert_game
          {| game_table_num := tableNum;
             game_player1 := player1 table;
             game_player2 := player2 table;
             game_score1 := score1 table;
             game_score2 := score2 table;
             game_winner := winner;
             game_start_time := start_time table |} d in
      (Ack, update_rows reset_table tableNum d1)
  end.

(** POST /api/cancelRoom *)
Definition cancelRoom (tableNum : Z) (d : db) : reply * db :=
  (Ack, update_rows reset_table tableNum d).

(** ** The state machine as a whole *)

(** One request to one of the handlers that write to the database. *)
Inductive op :=
| CreateRoom (tableNum : option Z) (nickname : option string) (target : option Z)
| JoinRoom (tableNum : Z) (nickname : option string)
| ApproveJoin (tableNum : Z) (target : option Z)
| SetColors (tableNum : Z) (c1 c2 : option string) (now : Z)
| UpdateScore (tableNum : Z) (score : Z)
| NextTurn (tableNum : Z)
| EndGame (tableNum : Z)
| CancelRoom (tableNum : Z).

Definition handle (o : op) (d : db) : reply * db :=
  match o with
  | CreateRoom n nick tg => createRoom n nick tg d
  | JoinRoom n nick => joinRoom n nick d
  | ApproveJoin n tg => approveJoin n tg d
  | SetColors n c1 c2 now => setColors n c1 c2 now d
  | UpdateScore n sc => updateScore n sc d
  | NextTurn n => nextTurn n d
  | EndGame n => endGame n d
  | CancelRoom n => cancelRoom n d
  end.

(** Requests served one after the other. *)
Fixpoint run (ops : list op) (d : db) : db :=
  match ops with
  | [] => d
  | o :: ops => run ops (handle o d).2
  end.

(** ** Predicates of the specification *)

(** The row every reset leaves behind. *)
Definition idle_table : table :=
  {| status := available;
     player1 := None; player2 := None;
     score1 := 0; score2 := 0;
     target1 := 0; target2 := 0;
     color1 := None; color2 := None;
     current_turn := None;
     inning := 0;
     start_time := None |}.

(** Player, score, target, colour, turn, inning and start time all null/zero. *)
Definition all_clear (t : table) : Prop :=
  player1 t = None ∧ player2 t = None ∧
  score1 t = 0 ∧ score2 t = 0 ∧
  target1 t = 0 ∧ target2 t = 0 ∧
  color1 t = None ∧ color2 t = None ∧
  current_turn t = None ∧ inning t = 0 ∧ start_time t = None.

#[global] Instance all_clear_dec t : Decision (all_clear t).
Proof. unfold all_clear. apply _. Defined.

(** Every available table is all null/zero. *)
Definition available_clear (d : db) : Prop :=
  map_Forall (λ _ t, status t = available → all_clear t) (tables d).

#[global] Instance available_clear_dec d : Decision (available_clear d).
Proof. unfold available_clear. apply _. Defined.

(** Does [tableNum] name a table whose status is available? *)
Definition addressed_available (tableNum : Z) (d : db) : bool :=
  match tables d !! tableNum with
  | Some t => bool_decide (status t = available)
  | None => false
  end.

(** [approveJoin] and [updateScore] write a column without looking at the
    status; the request below is one that does not hit an available table. *)
Definition respects_status (o : op) (d : db) : bool :=
  match o with
  | ApproveJoin n _ | UpdateScore n _ => negb (addressed_available n d)
  | _ => true
  end.

Fixpoint respects_all (ops : list op) (d : db) : bool :=
  match ops with
  | [] => true
  | o :: ops => respects_status o d && respects_all ops (handle o d).2
  end.


(** ** Sample databases *)

(** A hall with two idle tables and no game played yet. *)
Definition hall : db :=
  {| tables := {[ 1 := idle_table; 5 := idle_table ]}; games := [] |}.

(** Table 5 after Kim opened a room, Lee joined and was approved; the
    colours are not chosen yet, so [current_turn] is still NULL. *)
Definition pending : db :=
  run [ CreateRoom (Some 5) (Some "Kim"%string) (Some 25);
        JoinRoom 5 (Some "Lee"%string);
        ApproveJoin 5 (Some 20) ] hall.

(** The same table once the game has started and both have scored a little. *)
Definition playing : db :=
  run [ SetColors 5 (Some "red"%string) (Some "white"%string) 1700000000;
        UpdateScore 5 4;
        NextTurn 5;
        UpdateScore 5 3 ] pending.

(** Table 5 when Lee, who started, has just scored the 20 points needed. *)
Definition decided : db :=
  run [ SetColors 5 (Some "red"%string) (Some "white"%string) 1700000000;
        UpdateScore 5 20 ] pending.

(** ** The handlers that only read *)

(** [ORDER BY table_num] *)
Definition by_table_num (a b : Z * table) : Prop := a.1 ≤ b.1.

#[global] Instance by_table_num_dec (a b : Z * table) :
  Decision (by_table_num a b).
Proof. unfold by_table_num. apply _. Defined.

(** GET /api/getTables: every row with its table number, in the order of
    the query. The handler sends no other reply unless the query fails. *)
Definition getTables (d : db) : list (Z * table) :=
  merge_sort by_table_num (map_to_list (tables d)).

(** What getGameState sends back. *)
Inductive game_state_reply :=
| GameState (tableNum : Z) (t : table)   (* 200, game: the row *)
| GameStateNotFound.                     (* 404 *)

(** POST /api/getGameState; the selected row's [table_num] is [tableNum]. *)
Definition getGameState (tableNum : Z) (d : db) : game_state_reply :=
  let rows := select_rows d tableNum in
  match rows with
  | [] => GameStateNotFound
  | table :: _ => GameState tableNum table
  end.

(** ** Requests seen from outside *)

(** The table a request names, if it names one. *)
Definition op_table (o : op) : option Z :=
  match o with
  | CreateRoom n _ _ => n
  | JoinRoom n _ | ApproveJoin n _ | SetColors n _ _ _ | UpdateScore n _
  | NextTurn n | EndGame n | CancelRoom n => Some n
  end.

(** Is the request an endGame for a table that exists? *)
Definition ends_game (d : db) (o : op) : bool :=
  match o with
  | EndGame n => bool_decide (is_Some (tables d !! n))
  | _ => false
  end.


(** An occupied table has a turn, a start time and an inning of at least 1. *)
Definition game_started (t : table) : Prop :=
  is_Some (current_turn t) ∧ is_Some (start_time t) ∧ 1 ≤ inning t.

#[global] Instance game_started_dec t : Decision (game_started t).
Proof. unfold game_started. apply _. Defined.

Definition occupied_started (d : db) : Prop :=
  map_Forall (λ _ t, status t = occupied → game_started t) (tables d).

#[global] Instance occupied_started_dec d : Decision (occupied_started d).
Proof. unfold occupied_started. apply _. Defined.

(** A waiting table has a host with a non-empty nickname. *)
Definition hosted (t : table) : Prop :=
  match player1 t with
  | Some nick => nick ≠ ""%string
  | None => False
  end.

#[global] Instance hosted_dec t : Decision (hosted t).
Proof. unfold hosted. destruct (player1 t); apply _. Defined.

Definition waiting_hosted (d : db) : Prop :=
  map_Forall (λ _ t, status t = waiting → hosted t) (tables d).

#[global] Instance waiting_hosted_dec d : Decision (waiting_hosted d).
Proof. unfold waiting_hosted. apply _. Defined.

(** The winner of a record is one of its two players. *)
Definition winner_played (g : game) : Prop :=
  game_winner g = game_player1 g ∨ game_winner g = game_player2 g.

(** ** Users *)

(** A row of [users], without its [id]. *)
Record user := User {
  user_nickname : string;
  user_target : Z;
  user_wins : Z;
  user_losses : Z
}.

(** What register and login send back. *)
Inductive user_reply :=
| Registered (u : user)      (* 200, register: user *)
| LoggedIn (u : user)        (* 200, login: user *)
| BadNickname                (* 400, nickname missing or not 2-10 long *)
| DuplicateNickname          (* 400, nickname taken *)
| UnknownNickname.           (* 404, login *)

Section user_store.

(** The schema of [users] is not in the source. What the handlers need of
    it is taken as given: how the column [nickname] compares with a string
    (its collation), and the defaults of the columns [wins] and [losses].
    A character of a nickname stands for one UTF-16 code unit, which is
    what [nickname.length] counts. *)
Context (same_nickname : string → string → bool) (wins0 losses0 : Z).

(** [SELECT ... FROM users WHERE nickname = ?] *)
Definition select_users (us : list user) (nickname : string) : list user :=
  filter (λ u, same_nickname (user_nickname u) nickname = true) us.

(** [INSERT INTO users (nickname, target) VALUES (?, ?)] *)
Definition insert_user (nickname : string) (target : Z) (us : list user)
    : list user :=
  us ++ [ {| user_nickname := nickname; user_target := target;
             user_wins := wins0; user_losses := losses0 |} ].

(** POST /api/register; [target] defaults to 25. *)
Definition register (nickname : option string) (target : option Z)
    (us : list user) : user_reply * list user :=
  let target := default 25 target in
  if missing_str nickname
     || (Z.of_nat (String.length (default ""%string nickname)) <? 2)
     || (Z.of_nat (String.length (default ""%string nickname)) >? 10)
  then (BadNickname, us)
  else
    let nickname := default ""%string nickname in
    let rows := select_users us nickname in
    if (Z.of_nat (length rows) >? 0) then (DuplicateNickname, us)
    else
      (Registered {| user_nickname := nickname; user_target := target;
                     user_wins := 0; user_losses := 0 |},
       insert_user nickname target us).

(** POST /api/login; it only reads. *)
Definition login (nickname : option string) (us : list user) : user_reply :=
  if missing_str nickname then BadNickname
  else
    let rows := select_users us (default ""%string nickname) in
    match rows with
    | [] => UnknownNickname
    | row0 :: _ => LoggedIn row0
    end.

(** No two rows carry the same nickname. *)
Definition unique_nicknames (us : list user) : Prop :=
  ∀ i j u v, us !! i = Some u → us !! j = Some v →
             same_nickname (user_nickname u) (user_nickname v) = true → i = j.

(** Registrations served one after the other. *)
Fixpoint register_all (reqs : list (option string * option Z))
    (us : list user) : list user :=
  match reqs with
  | [] => us
  | (nickname, target) :: reqs =>
      register_all reqs (register nickname target us).2
  end.

End user_store.

(** ** Facts about the queries *)

Section queries.
Context (d : db) (n : Z).

Lemma head_select_rows : head (select_rows d n) = tables d !! n.
Proof. unfold select_rows. by destruct (tables d !! n). Qed.

Lemma select_rows_Some t : tables d !! n = Some t → select_rows d n = [t].
Proof. unfold select_rows. by intros ->. Qed.

Lemma select_rows_None : tables d !! n = None → select_rows d n = [].
Proof. unfold select_rows. by intros ->. Qed.

Lemma tables_update_rows set :
  tables (update_rows set n d) !! n = set <$> tables d !! n.
Proof. apply lookup_alter_eq. Qed.

Lemma tables_update_rows_ne set m :
  n ≠ m → tables (update_rows set n d) !! m = tables d !! m.
Proof. intros. by apply lookup_alter_ne. Qed.

Lemma update_rows_absent set :
  tables d !! n = None → update_rows set n d = d.
Proof.
  intros Hnone. destruct d as [tb gs]. unfold update_rows. simpl in *. f_equal.
  apply map_eq. intros m. destruct (decide (n = m)) as [<-|].
  - by rewrite lookup_alter_eq, Hnone.
  - by rewrite lookup_alter_ne.
Qed.
End queries.

Lemma reset_table_idle t : reset_table t = idle_table.
Proof. reflexivity. Qed.

Lemma idle_table_clear : all_clear idle_table.
Proof. by repeat split. Qed.

Lemma geb_true a b : b ≤ a → (a >=? b) = true.
Proof. intros. by apply Z.geb_le. Qed.

Lemma geb_false a b : a < b → (a >=? b) = false.
Proof. intros. rewrite Z.geb_leb. by apply Z.leb_gt. Qed.

(** ** The winner *)

(** C1: the game record appended by endGame names player1 as winner when
    score1 >= target1 and player2 otherwise; score2 is never compared with
    target2, so with score1 < target1 the winner is player2 even when
    score2 < target2 as well. *)
Theorem endGame_winner (n : Z) (d : db) (t : table) :
  tables d !! n = Some t →
  ∃ g, games (endGame n d).2 = games d ++ [g] ∧
       (target1 t ≤ score1 t → game_winner g = player1 t) ∧
       (score1 t < target1 t → game_winner g = player2 t) ∧
       (score1 t < target1 t → score2 t < target2 t →
        game_winner g = player2 t).
Proof.
  intros Ht. unfold endGame. rewrite head_select_rows, Ht. simpl.
  eexists. split; [reflexivity|]. simpl.
  repeat split; intros.
  - by rewrite geb_true.
  - by rewrite geb_false.
  - by rewrite geb_false.
Qed.

Lemma endGame_winner_witness :
  ∃ g, games (endGame 5 playing).2 = games playing ++ [g] ∧
       (25 ≤ 3 → game_winner g = Some "Kim"%string) ∧
       (3 < 25 → game_winner g = Some "Lee"%string) ∧
       (3 < 25 → 4 < 20 → game_winner g = Some "Lee"%string).
Proof.
  apply (endGame_winner 5 playing
           (Table occupied (Some "Kim"%string) (Some "Lee"%string) 3 4 25 20
              (Some "red"%string) (Some "white"%string) (Some Player1) 2
              (Some 1700000000))).
  vm_compute. reflexivity.
Defined.

(** C2: nextTurn looks at the win condition before anything else: with
    score1 >= target1 it reports gameOver, winner player1, and writes
    nothing; otherwise with score2 >= target2 it reports gameOver, winner
    player2, and writes nothing; when both targets are reached the winner
    is player1. *)
Theorem nextTurn_win_first (n : Z) (d : db) (t : table) :
  tables d !! n = Some t →
  (target1 t ≤ score1 t → nextTurn n d = (GameOver Player1, d)) ∧
  (score1 t < target1 t → target2 t ≤ score2 t →
   nextTurn n d = (GameOver Player2, d)) ∧
  (target1 t ≤ score1 t → target2 t ≤ score2 t →
   nextTurn n d = (GameOver Player1, d)).
Proof.
  intros Ht. unfold nextTurn. rewrite head_select_rows, Ht. simpl.
  repeat split; intros.
  - by rewrite geb_true.
  - by rewrite geb_false, geb_true.
  - by rewrite geb_true.
Qed.

Lemma nextTurn_win_first_witness :
  nextTurn 5 decided = (GameOver Player2, decided) ∧
  nextTurn 1 decided = (GameOver Player1, decided).
Proof.
  split.
  - apply (nextTurn_win_first 5 decided
             (Table occupied (Some "Kim"%string) (Some "Lee"%string) 0 20 25 20
                (Some "red"%string) (Some "white"%string) (Some Player2) 1
                (Some 1700000000))); [by vm_compute|simpl; lia..].
  - apply (nextTurn_win_first 1 decided idle_table); [by vm_compute|simpl; lia..].
Defined.

(** ** Passing the turn *)

(** What one call of nextTurn does to a row on which no target is reached:
    also when [current_turn] is NULL, in which case the turn goes to
    player1 and the inning is counted up. *)
Lemma nextTurn_pass (n : Z) (d : db) (t : table) :
  tables d !! n = Some t →
  score1 t < target1 t → score2 t < target2 t →
  nextTurn n d =
    (TurnPassed,
     update_rows
       (set_turn (if bool_decide (current_turn t = Some Player1)
                  then Player2 else Player1)
                 (if bool_decide (current_turn t = Some Player1)
                  then inning t else inning t + 1)) n d).
Proof.
  intros Ht H1 H2. unfold nextTurn. rewrite head_select_rows, Ht. simpl.
  rewrite !geb_false by done. by case_bool_decide.
Qed.

Lemma nextTurn_null_turn (n : Z) (d : db) (t : table) :
  tables d !! n = Some t →
  score1 t < target1 t → score2 t < target2 t →
  current_turn t = None →
  tables (nextTurn n d).2 !! n = Some (set_turn Player1 (inning t + 1) t).
Proof.
  intros Ht H1 H2 Hnull. rewrite (nextTurn_pass n d t) by done. cbn [snd].
  by rewrite tables_update_rows, Ht, Hnull.
Qed.




(** ** Available tables are cleared *)

(** An update keeps [available_clear] when the rewritten row, if it comes
    out available, is cleared. *)
Lemma available_clear_update (set : table → table) (n : Z) (d : db) :
  available_clear d →
  (∀ t, tables d !! n = Some t → status (set t) = available →
        all_clear (set t)) →
  available_clear (update_rows set n d).
Proof.
  intros Hd Hset m t'. destruct (decide (n = m)) as [<-|Hne].
  - rewrite tables_update_rows. destruct (tables d !! n) as [t|] eqn:Ht; [|done].
    intros [= <-]. by apply Hset.
  - rewrite tables_update_rows_ne by done. apply Hd.
Qed.

Lemma available_clear_insert_game (g : game) (d : db) :
  available_clear d → available_clear (insert_game g d).
Proof. done. Qed.

(** A row that is not available may be rewritten at will, as long as the
    status column is left alone. *)
Lemma available_clear_update_busy (set : table → table) (n : Z) (d : db) :
  available_clear d →
  (∀ t, status (set t) = status t) →
  (∀ t, tables d !! n = Some t → status t ≠ available) →
  available_clear (update_rows set n d).
Proof.
  intros Hd Hkeep Hbusy. apply available_clear_update; [done|].
  intros t Ht. rewrite Hkeep. intros Hav. by destruct (Hbusy t Ht).
Qed.

(** One request keeps the predicate, provided it is not an approveJoin or
    an updateScore aimed at an available table. *)
Lemma available_clear_handle (o : op) (d : db) :
  available_clear d → respects_status o d = true →
  available_clear (handle o d).2.
Proof.
  intros Hd Hok. destruct o as [n nick tg|n nick|n tg|n c1 c2 now|n sc|n|n|n];
    simpl in *.
  - unfold createRoom. destruct (_ || _); [done|].
    destruct (select_rows _ _); [done|]. case_bool_decide; [done|].
    by apply available_clear_update.
  - unfold joinRoom. destruct (tables d !! n) as [t|] eqn:Ht.
    + rewrite (select_rows_Some d n t Ht). case_bool_decide as Hw; [done|].
      apply available_clear_update_busy; [done..|].
      intros t' Ht'. assert (status t = waiting) by by destruct (status t).
      congruence.
    + by rewrite (select_rows_None d n Ht).
  - apply available_clear_update_busy; [done..|]. intros t Ht Hav.
    unfold addressed_available in Hok.
    by rewrite Ht, (bool_decide_eq_true_2 _ Hav) in Hok.
  - by apply available_clear_update.
  - unfold updateScore. rewrite head_select_rows.
    destruct (tables d !! n) as [t|] eqn:Ht; [|done].
    assert (Hbusy : status t ≠ available).
    { intros Hav. unfold addressed_available in Hok.
      by rewrite Ht, (bool_decide_eq_true_2 _ Hav) in Hok. }
    cbn [snd]. apply available_clear_update_busy; [done| |congruence].
    by case_bool_decide.
  - unfold nextTurn. rewrite head_select_rows.
    destruct (tables d !! n) as [t|] eqn:Ht; [|done]. cbn [snd].
    destruct (score1 t >=? target1 t) eqn:Hwin; [done|].
    destruct (score2 t >=? target2 t); [done|]. cbn [snd].
    apply available_clear_update_busy; [done..|].
    intros t' Ht' Hav. assert (t' = t) as -> by congruence.
    destruct (Hd n t Ht Hav) as (_ & _ & Hs1 & _ & Hg1 & _).
    rewrite Hs1, Hg1 in Hwin. discriminate.
  - unfold endGame. rewrite head_select_rows.
    destruct (tables d !! n) as [t|] eqn:Ht; [|done]. cbn [snd].
    apply available_clear_update; [done|]. intros. apply idle_table_clear.
  - apply available_clear_update; [done|]. intros. apply idle_table_clear.
Qed.

(** C4, as stated, fails: approveJoin writes target2 whatever the status.
    In [hall] every available table is cleared; after approveJoin(5, 20)
    table 5 is still available and its target2 is 20. *)
Lemma approveJoin_breaks_available_clear :
  available_clear hall ∧
  ¬ available_clear (handle (ApproveJoin 5 (Some 20)) hall).2 ∧
  (status <$> tables (handle (ApproveJoin 5 (Some 20)) hall).2 !! 5
     = Some available ∧
   target2 <$> tables (handle (ApproveJoin 5 (Some 20)) hall).2 !! 5
     = Some 20).
Proof.
  split; [by apply (bool_decide_unpack (available_clear hall)); vm_compute|].
  split; [|by vm_compute].
  intros Hall.
  specialize (Hall 5 (set_target2 20 idle_table)).
  destruct Hall as (_ & _ & _ & _ & _ & Hg2 & _); [by vm_compute|done|].
  discriminate Hg2.
Qed.

(** The same happens with updateScore, which on a NULL currentTurn writes
    score2 of an available table. *)
Lemma updateScore_breaks_available_clear :
  available_clear hall ∧ ¬ available_clear (handle (UpdateScore 5 7) hall).2.
Proof.
  split; [by apply (bool_decide_unpack (available_clear hall)); vm_compute|].
  intros Hall.
  specialize (Hall 5 (set_score2 7 idle_table)).
  destruct Hall as (_ & _ & _ & Hs2 & _); [by vm_compute|done|].
  discriminate Hs2.
Qed.

(** C4, amended: a table whose status is available has player1, player2,
    score1, score2, target1, target2, color1, color2, currentTurn, inning
    and startTime all null/zero, and this is kept by every sequence of
    createRoom, joinRoom, setColors, nextTurn, endGame and cancelRoom
    requests, and of approveJoin and updateScore requests that are not
    aimed at an available table. *)
Theorem available_clear_run (ops : list op) (d : db) :
  available_clear d → respects_all ops d = true →
  available_clear (run ops d).
Proof.
  revert d. induction ops as [|o ops IH]; intros d Hd Hok; [done|].
  simpl in *. apply andb_prop in Hok as [Ho Hops].
  apply IH; [|done]. by apply available_clear_handle.
Qed.

Lemma available_clear_run_witness :
  available_clear
    (run [ CreateRoom (Some 5) (Some "Kim"%string) (Some 25);
           JoinRoom 5 (Some "Lee"%string);
           ApproveJoin 5 (Some 20);
           SetColors 5 (Some "red"%string) (Some "white"%string) 1700000000;
           UpdateScore 5 20;
           NextTurn 5;
           EndGame 5;
           CreateRoom (Some 1) (Some "Park"%string) None;
           CancelRoom 1 ] hall).
Proof.
  apply available_clear_run.
  - apply (bool_decide_unpack (available_clear hall)). vm_compute. exact I.
  - vm_compute. reflexivity.
Defined.

(** ** Starting a game *)

(** C5: on a waiting table setColors sets the status to occupied, stores
    both colours, sets inning to 1 and startTime to the current time, and
    gives the first turn to player2 exactly when color2 is "white", to
    player1 for any other color2; nothing else changes. *)
Theorem setColors_waiting (n : Z) (c1 c2 : option string) (now : Z)
    (d : db) (t : table) :
  tables d !! n = Some t → status t = waiting →
  ∃ starter,
    setColors n c1 c2 now d
      = (Started starter, update_rows (set_game_start c1 c2 starter now) n d) ∧
    (starter = Player2 ↔ c2 = Some "white"%string) ∧
    (starter = Player1 ↔ c2 ≠ Some "white"%string) ∧
    tables (setColors n c1 c2 now d).2 !! n =
      Some {| status := occupied;
              player1 := player1 t; player2 := player2 t;
              score1 := score1 t; score2 := score2 t;
              target1 := target1 t; target2 := target2 t;
              color1 := c1; color2 := c2;
              current_turn := Some starter;
              inning := 1;
              start_time := Some now |} ∧
    (∀ m, m ≠ n →
          tables (setColors n c1 c2 now d).2 !! m = tables d !! m) ∧
    games (setColors n c1 c2 now d).2 = games d.
Proof.
  intros Ht _. unfold setColors.
  exists (if bool_decide (c2 = Some "white"%string) then Player2 else Player1).
  split; [done|]. cbn [snd].
  split; [case_bool_decide; naive_solver|].
  split; [case_bool_decide; naive_solver|].
  split; [by rewrite tables_update_rows, Ht|].
  split; [|done]. intros m Hm. by apply tables_update_rows_ne.
Qed.

Lemma setColors_waiting_witness :
  ∃ starter,
    setColors 5 (Some "red"%string) (Some "white"%string) 1700000000 pending
      = (Started starter,
         update_rows
           (set_game_start (Some "red"%string) (Some "white"%string)
              starter 1700000000) 5 pending) ∧
    (starter = Player2 ↔ Some "white"%string = Some "white"%string) ∧
    (starter = Player1 ↔ Some "white"%string ≠ Some "white"%string) ∧
    tables
      (setColors 5 (Some "red"%string) (Some "white"%string) 1700000000
         pending).2 !! 5 =
      Some {| status := occupied;
              player1 := Some "Kim"%string; player2 := Some "Lee"%string;
              score1 := 0; score2 := 0;
              target1 := 25; target2 := 20;
              color1 := Some "red"%string; color2 := Some "white"%string;
              current_turn := Some starter;
              inning := 1;
              start_time := Some 1700000000 |} ∧
    (∀ m, m ≠ 5 →
          tables
            (setColors 5 (Some "red"%string) (Some "white"%string) 1700000000
               pending).2 !! m = tables pending !! m) ∧
    games
      (setColors 5 (Some "red"%string) (Some "white"%string) 1700000000
         pending).2 = games pending.
Proof.
  apply (setColors_waiting 5 (Some "red"%string) (Some "white"%string)
           1700000000 pending
           (Table waiting (Some "Kim"%string) (Some "Lee"%string) 0 0 25 20
              None None None 0 None)).
  - vm_compute. reflexivity.
  - reflexivity.
Defined.

(** ** Ending a game *)

(** C6: endGame on an existing table succeeds whatever the scores, appends
    exactly one record holding the table number, both players, both scores,
    the winner and the table's start time, and leaves the table in the
    available all-null/zero state; the other tables are untouched. *)
Theorem endGame_record_and_reset (n : Z) (d : db) (t : table) :
  tables d !! n = Some t →
  (endGame n d).1 = Ack ∧
  games (endGame n d).2 =
    games d ++
    [ {| game_table_num := n;
         game_player1 := player1 t;
         game_player2 := player2 t;
         game_score1 := score1 t;
         game_score2 := score2 t;
         game_winner :=
           if bool_decide (target1 t ≤ score1 t)
           then player1 t else player2 t;
         game_start_time := start_time t |} ] ∧
  length (games (endGame n d).2) = S (length (games d)) ∧
  tables (endGame n d).2 !! n = Some idle_table ∧
  (∀ m, m ≠ n → tables (endGame n d).2 !! m = tables d !! m).
Proof.
  intros Ht. unfold endGame. rewrite head_select_rows, Ht. cbn [fst snd].
  split; [done|].
  assert (Hw : (if score1 t >=? target1 t then player1 t else player2 t) =
               (if bool_decide (target1 t ≤ score1 t)
                then player1 t else player2 t)).
  { case_bool_decide.
    - by rewrite geb_true.
    - rewrite geb_false; [done|lia]. }
  rewrite Hw. split; [done|].
  split; [cbn; rewrite length_app; cbn; lia|].
  split.
  - rewrite tables_update_rows. cbn. by rewrite Ht.
  - intros m Hm. by rewrite tables_update_rows_ne.
Qed.

Lemma endGame_record_and_reset_witness :
  (endGame 5 playing).1 = Ack ∧
  games (endGame 5 playing).2 =
    [ {| game_table_num := 5;
         game_player1 := Some "Kim"%string;
         game_player2 := Some "Lee"%string;
         game_score1 := 3;
         game_score2 := 4;
         game_winner := Some "Lee"%string;
         game_start_time := Some 1700000000 |} ] ∧
  tables (endGame 5 playing).2 !! 5 = Some idle_table.
Proof.
  destruct (endGame_record_and_reset 5 playing
              (Table occupied (Some "Kim"%string) (Some "Lee"%string) 3 4 25 20
                 (Some "red"%string) (Some "white"%string) (Some Player1) 2
                 (Some 1700000000)))
    as (Hack & Hgames & _ & Hreset & _); [by vm_compute|].
  split; [exact Hack|]. split; [exact Hgames|exact Hreset].
Defined.

(** ** Opening a room *)

(** A createRoom that does not succeed leaves the database as it was. *)
Lemma createRoom_failure_keeps_db (tableNum : option Z)
    (nickname : option string) (target : option Z) (d : db) :
  (createRoom tableNum nickname target d).1 ≠ Ack →
  (createRoom tableNum nickname target d).2 = d.
Proof.
  unfold createRoom. destruct (_ || _); [done|].
  destruct (select_rows _ _); [done|]. by case_bool_decide.
Qed.

(** With both fields present the handler goes on to look the table up. *)
Lemma createRoom_present (n : Z) (nick : string) (target : option Z) (d : db) :
  n ≠ 0 → nick ≠ ""%string →
  createRoom (Some n) (Some nick) target d =
    match tables d !! n with
    | None => (NotFound, d)
    | Some t =>
        if bool_decide (status t ≠ available) then (InvalidState, d)
        else (Ack, update_rows (set_room (Some nick) (default 25 target)) n d)
    end.
Proof.
  intros Hn Hnick. unfold createRoom, missing_num, missing_str, select_rows.
  rewrite (proj2 (Z.eqb_neq n 0) Hn), bool_decide_eq_false_2 by done.
  change (default 0 (Some n)) with n. cbn [orb]. by destruct (tables d !! n).
Qed.

(** C7, as stated, fails in two ways. The handler first rejects a request
    without a table number or without a nickname: table 7 does not exist in
    [hall], yet createRoom(7, "", 25) is answered 400 for the missing
    nickname and not 404, and createRoom(5, "", 25) on the available table
    5 fails instead of opening the room. And the UPDATE writes status,
    player1 and target1 only: after approveJoin(5, 20) on the idle table 5
    the table is still available, createRoom(5, "Kim", 25) succeeds, and
    target2 is 20 afterwards, not unset. *)
Lemma createRoom_missing_nickname :
  tables hall !! 7 = None ∧
  createRoom (Some 7) (Some ""%string) (Some 25) hall = (InvalidInput, hall) ∧
  status <$> tables hall !! 5 = Some available ∧
  createRoom (Some 5) (Some ""%string) (Some 25) hall = (InvalidInput, hall) ∧
  status <$> tables (approveJoin 5 (Some 20) hall).2 !! 5 = Some available ∧
  (createRoom (Some 5) (Some "Kim"%string) (Some 25)
     (approveJoin 5 (Some 20) hall).2).1 = Ack ∧
  target2 <$>
    tables (createRoom (Some 5) (Some "Kim"%string) (Some 25)
              (approveJoin 5 (Some 20) hall).2).2 !! 5 = Some 20.
Proof. by vm_compute. Qed.

(** C7, amended: for a request that carries a non-zero table number and a
    non-empty nickname, createRoom fails with NotFound when the table does
    not exist and with InvalidState when its status is not available; when
    the status is available it sets status to waiting, player1 to the
    nickname and target1 to the target (25 when none is given) and writes
    no other column, so that player2 and target2 stay as they were: unset
    when they were unset, as on a table in the all-null/zero state. A
    request without table number or nickname fails with InvalidInput. Every
    failure leaves the database untouched. *)
Theorem createRoom_spec (n : Z) (nick : string) (target : option Z) (d : db) :
  n ≠ 0 → nick ≠ ""%string →
  (tables d !! n = None →
   createRoom (Some n) (Some nick) target d = (NotFound, d)) ∧
  (∀ t, tables d !! n = Some t → status t ≠ available →
        createRoom (Some n) (Some nick) target d = (InvalidState, d)) ∧
  (∀ t, tables d !! n = Some t → status t = available →
        (createRoom (Some n) (Some nick) target d).1 = Ack ∧
        tables (createRoom (Some n) (Some nick) target d).2 !! n =
          Some {| status := waiting;
                  player1 := Some nick; player2 := player2 t;
                  score1 := score1 t; score2 := score2 t;
                  target1 := default 25 target; target2 := target2 t;
                  color1 := color1 t; color2 := color2 t;
                  current_turn := current_turn t;
                  inning := inning t;
                  start_time := start_time t |} ∧
        (player2 t = None → target2 t = 0 →
         player2 <$> tables (createRoom (Some n) (Some nick) target d).2 !! n
           = Some None ∧
         target2 <$> tables (createRoom (Some n) (Some nick) target d).2 !! n
           = Some 0) ∧
        (∀ m, m ≠ n →
              tables (createRoom (Some n) (Some nick) target d).2 !! m
                = tables d !! m) ∧
        games (createRoom (Some n) (Some nick) target d).2 = games d) ∧
  (∀ tableNum nickname,
     missing_num tableNum || missing_str nickname = true →
     createRoom tableNum nickname target d = (InvalidInput, d)) ∧
  (∀ tableNum nickname,
     (createRoom tableNum nickname target d).1 ≠ Ack →
     (createRoom tableNum nickname target d).2 = d).
Proof.
  intros Hn Hnick. rewrite (createRoom_present n nick target d Hn Hnick).
  split; [by intros ->|].
  split; [intros t -> Hbusy; by rewrite bool_decide_eq_true_2|].
  split.
  - intros t Ht Hav. rewrite Ht, bool_decide_eq_false_2 by tauto.
    cbn [fst snd]. split; [done|].
    split; [by rewrite tables_update_rows, Ht|].
    split; [by intros Hp2 Hg2; rewrite tables_update_rows, Ht; cbn;
              rewrite Hp2, Hg2|].
    split; [|done]. intros m Hm. by apply tables_update_rows_ne.
  - split.
    + intros tableNum nickname Hmiss. unfold createRoom. by rewrite Hmiss.
    + intros tableNum nickname. apply createRoom_failure_keeps_db.
Qed.

Lemma createRoom_spec_witness :
  createRoom (Some 7) (Some "Kim"%string) (Some 25) hall = (NotFound, hall) ∧
  createRoom (Some 5) (Some "Park"%string) (Some 30) pending
    = (InvalidState, pending) ∧
  (createRoom (Some 5) (Some "Kim"%string) (Some 25) hall).1 = Ack ∧
  tables (createRoom (Some 5) (Some "Kim"%string) (Some 25) hall).2 !! 5 =
    Some {| status := waiting;
            player1 := Some "Kim"%string; player2 := None;
            score1 := 0; score2 := 0;
            target1 := 25; target2 := 0;
            color1 := None; color2 := None;
            current_turn := None;
            inning := 0;
            start_time := None |} ∧
  player2 <$> tables (createRoom (Some 5) (Some "Kim"%string) (Some 25) hall).2
                !! 5 = Some None ∧
  target2 <$> tables (createRoom (Some 5) (Some "Kim"%string) (Some 25) hall).2
                !! 5 = Some 0 ∧
  createRoom (Some 0) (Some "Kim"%string) (Some 25) hall = (InvalidInput, hall).
Proof.
  destruct (createRoom_spec 7 "Kim" (Some 25) hall) as (Hnone & _);
    [lia|done|].
  destruct (createRoom_spec 5 "Park" (Some 30) pending) as (_ & Hbusy & _);
    [lia|done|].
  destruct (createRoom_spec 5 "Kim" (Some 25) hall)
    as (_ & _ & Hopen & Hmiss & _); [lia|done|].
  destruct (Hopen idle_table) as (Hack & Hrow & Hunset & _);
    [by vm_compute|done|].
  destruct Hunset as [Hp2 Hg2]; [done..|].
  split; [apply Hnone; by vm_compute|].
  split; [apply (Hbusy (Table waiting (Some "Kim"%string) (Some "Lee"%string)
                          0 0 25 20 None None None 0 None)); by vm_compute|].
  split; [exact Hack|]. split; [exact Hrow|].
  split; [exact Hp2|]. split; [exact Hg2|].
  by apply Hmiss.
Defined.

(** ** Cancelling a room *)

Lemma update_rows_reset_twice (n : Z) (d : db) :
  update_rows reset_table n (update_rows reset_table n d)
    = update_rows reset_table n d.
Proof.
  unfold update_rows. cbn [tables games]. f_equal.
  apply map_eq. intros m. destruct (decide (n = m)) as [<-|Hne].
  - rewrite !lookup_alter_eq. by destruct (tables d !! n).
  - by rewrite !lookup_alter_ne.
Qed.

(** C8: cancelRoom never looks at the status: it always answers with
    success, the table it names, if there is one, becomes the available
    all-null/zero row, every other table and the game log stay as they
    are, and a second cancelRoom in a row gives the same reply and the
    same database as the first. *)
Theorem cancelRoom_resets_idempotent (n : Z) (d : db) :
  (cancelRoom n d).1 = Ack ∧
  tables (cancelRoom n d).2 !! n = (λ _, idle_table) <$> tables d !! n ∧
  (∀ m, m ≠ n → tables (cancelRoom n d).2 !! m = tables d !! m) ∧
  games (cancelRoom n d).2 = games d ∧
  cancelRoom n (cancelRoom n d).2 = cancelRoom n d.
Proof.
  unfold cancelRoom. cbn [fst snd].
  split; [done|].
  split; [by rewrite tables_update_rows; destruct (tables d !! n)|].
  split; [intros m Hm; by apply tables_update_rows_ne|].
  split; [done|].
  by rewrite update_rows_reset_twice.
Qed.

Lemma cancelRoom_resets_idempotent_witness :
  tables (cancelRoom 5 playing).2 !! 5 = Some idle_table ∧
  cancelRoom 5 (cancelRoom 5 playing).2 = cancelRoom 5 playing.
Proof.
  destruct (cancelRoom_resets_idempotent 5 playing) as (_ & Hrow & _ & _ & Htwice).
  split; [|exact Htwice]. rewrite Hrow. vm_compute. reflexivity.
Defined.

(** ** Writing a score *)

(** C9: on an existing table updateScore writes the score into score1 when
    currentTurn is player1, and into score2 for any other currentTurn,
    NULL included; no other column changes. *)
Theorem updateScore_column (n : Z) (score : Z) (d : db) (t : table) :
  tables d !! n = Some t →
  (updateScore n score d).1 = Ack ∧
  (current_turn t = Some Player1 →
   tables (updateScore n score d).2 !! n =
     Some {| status := status t;
             player1 := player1 t; player2 := player2 t;
             score1 := score; score2 := score2 t;
             target1 := target1 t; target2 := target2 t;
             color1 := color1 t; color2 := color2 t;
             current_turn := current_turn t;
             inning := inning t;
             start_time := start_time t |}) ∧
  (current_turn t ≠ Some Player1 →
   tables (updateScore n score d).2 !! n =
     Some {| status := status t;
             player1 := player1 t; player2 := player2 t;
             score1 := score1 t; score2 := score;
             target1 := target1 t; target2 := target2 t;
             color1 := color1 t; color2 := color2 t;
             current_turn := current_turn t;
             inning := inning t;
             start_time := start_time t |}) ∧
  (current_turn t = None →
   score1 <$> tables (updateScore n score d).2 !! n = Some (score1 t) ∧
   score2 <$> tables (updateScore n score d).2 !! n = Some score) ∧
  (∀ m, m ≠ n → tables (updateScore n score d).2 !! m = tables d !! m) ∧
  games (updateScore n score d).2 = games d.
Proof.
  intros Ht. unfold updateScore. rewrite head_select_rows, Ht. cbn [fst snd].
  split; [done|].
  rewrite tables_update_rows, Ht. cbn [fmap option_fmap option_map].
  split; [|split; [|split; [|split]]].
  - intros Hturn. by rewrite bool_decide_eq_true_2.
  - intros Hturn. by rewrite bool_decide_eq_false_2.
  - intros Hturn. rewrite bool_decide_eq_false_2; [done|by rewrite Hturn].
  - intros m Hm. by apply tables_update_rows_ne.
  - done.
Qed.

Lemma updateScore_column_witness :
  tables (updateScore 5 9 playing).2 !! 5 =
    Some {| status := occupied;
            player1 := Some "Kim"%string; player2 := Some "Lee"%string;
            score1 := 9; score2 := 4;
            target1 := 25; target2 := 20;
            color1 := Some "red"%string; color2 := Some "white"%string;
            current_turn := Some Player1;
            inning := 2;
            start_time := Some 1700000000 |} ∧
  tables (updateScore 5 9 decided).2 !! 5 =
    Some {| status := occupied;
            player1 := Some "Kim"%string; player2 := Some "Lee"%string;
            score1 := 0; score2 := 9;
            target1 := 25; target2 := 20;
            color1 := Some "red"%string; color2 := Some "white"%string;
            current_turn := Some Player2;
            inning := 1;
            start_time := Some 1700000000 |} ∧
  tables (updateScore 5 9 pending).2 !! 5 =
    Some {| status := waiting;
            player1 := Some "Kim"%string; player2 := Some "Lee"%string;
            score1 := 0; score2 := 9;
            target1 := 25; target2 := 20;
            color1 := None; color2 := None;
            current_turn := None;
            inning := 0;
            start_time := None |}.
Proof.
  destruct (updateScore_column 5 9 playing
              (Table occupied (Some "Kim"%string) (Some "Lee"%string) 3 4 25 20
                 (Some "red"%string) (Some "white"%string) (Some Player1) 2
                 (Some 1700000000))) as (_ & Hp1 & _); [by vm_compute|].
  destruct (updateScore_column 5 9 decided
              (Table occupied (Some "Kim"%string) (Some "Lee"%string) 0 20 25 20
                 (Some "red"%string) (Some "white"%string) (Some Player2) 1
                 (Some 1700000000))) as (_ & _ & Hp2 & _); [by vm_compute|].
  destruct (updateScore_column 5 9 pending
              (Table waiting (Some "Kim"%string) (Some "Lee"%string) 0 0 25 20
                 None None None 0 None)) as (_ & _ & Hnull & _);
    [by vm_compute|].
  split; [by apply Hp1|]. split; [by apply Hp2|by apply Hnull].
Defined.

(** ** Requests for a table that does not exist *)

(** C10: for a table number that is not in the store, updateScore,
    nextTurn and endGame all end in the catch block: the reply is the 500
    internal error, not the 404 of a missing table, and the database that
    comes back is the one that went in, so no row was written and no game
    record appended. *)
Theorem missing_table_internal_error (n : Z) (score : Z) (d : db) :
  tables d !! n = None →
  updateScore n score d = (InternalError, d) ∧
  nextTurn n d = (InternalError, d) ∧
  endGame n d = (InternalError, d) ∧
  InternalError ≠ NotFound ∧
  http_status InternalError = 500.
Proof.
  intros Hnone. unfold updateScore, nextTurn, endGame.
  rewrite head_select_rows, Hnone. done.
Qed.

Lemma missing_table_internal_error_witness :
  updateScore 7 9 playing = (InternalError, playing) ∧
  nextTurn 7 playing = (InternalError, playing) ∧
  endGame 7 playing = (InternalError, playing) ∧
  InternalError ≠ NotFound ∧
  http_status InternalError = 500.
Proof.
  apply (missing_table_internal_error 7 9 playing). vm_compute. reflexivity.
Defined.

(** ** The walk-through of the specification *)

(** Table 5: Kim opens a room, Lee joins and is approved, Lee gets white
    and so starts, scores 20 and thereby reaches the target of 20. *)
Example scenario_table5 :
  let d1 := (createRoom (Some 5) (Some "Kim"%string) (Some 25) hall).2 in
  let d2 := (joinRoom 5 (Some "Lee"%string) d1).2 in
  let d3 := (approveJoin 5 (Some 20) d2).2 in
  let d4 := (setColors 5 (Some "red"%string) (Some "white"%string) 1700000000 d3).2 in
  let d5 := (updateScore 5 20 d4).2 in
  status <$> tables d2 !! 5 = Some waiting ∧
  player2 <$> tables d2 !! 5 = Some (Some "Lee"%string) ∧
  target2 <$> tables d3 !! 5 = Some 20 ∧
  current_turn <$> tables d4 !! 5 = Some (Some Player2) ∧
  inning <$> tables d4 !! 5 = Some 1 ∧
  score2 <$> tables d5 !! 5 = Some 20 ∧
  nextTurn 5 d5 = (GameOver Player2, d5).
Proof. by vm_compute. Qed.

(** ** Joining a room *)

(** joinRoom in terms of the row it finds. *)
Lemma joinRoom_lookup (n : Z) (nickname : option string) (d : db) :
  joinRoom n nickname d =
    match tables d !! n with
    | Some t =>
        if bool_decide (status t = waiting)
        then (Ack, update_rows (set_player2 nickname) n d)
        else (InvalidState, d)
    | None => (InvalidState, d)
    end.
Proof.
  unfold joinRoom, select_rows. destruct (tables d !! n) as [t|]; [|done].
  cbn [option_list option_rect]. by destruct (status t).
Qed.

Lemma update_rows_twice (f g : table → table) (n : Z) (d : db) :
  update_rows g n (update_rows f n d) = update_rows (g ∘ f) n d.
Proof.
  unfold update_rows. cbn [tables games]. f_equal.
  apply map_eq. intros m. destruct (decide (n = m)) as [<-|Hne].
  - rewrite !lookup_alter_eq. by destruct (tables d !! n).
  - by rewrite !lookup_alter_ne.
Qed.

Lemma update_rows_ext (f g : table → table) (n : Z) (d : db) :
  (∀ t, tables d !! n = Some t → f t = g t) →
  update_rows f n d = update_rows g n d.
Proof.
  intros Hfg. unfold update_rows. f_equal. by apply alter_ext.
Qed.

(** X1: joinRoom succeeds exactly on an existing table whose status is
    waiting, and then writes player2 and nothing else, so the status stays
    waiting; in every other case, an unknown table included, the reply is
    the 400 of a table that cannot be joined and nothing is written. *)
Theorem joinRoom_gate (n : Z) (nickname : option string) (d : db) :
  ((joinRoom n nickname d).1 = Ack ↔
   ∃ t, tables d !! n = Some t ∧ status t = waiting) ∧
  ((joinRoom n nickname d).1 ≠ Ack →
   joinRoom n nickname d = (InvalidState, d)) ∧
  (∀ t, tables d !! n = Some t → status t = waiting →
        tables (joinRoom n nickname d).2 !! n =
          Some {| status := waiting;
                  player1 := player1 t; player2 := nickname;
                  score1 := score1 t; score2 := score2 t;
                  target1 := target1 t; target2 := target2 t;
                  color1 := color1 t; color2 := color2 t;
                  current_turn := current_turn t;
                  inning := inning t;
                  start_time := start_time t |} ∧
        (∀ m, m ≠ n → tables (joinRoom n nickname d).2 !! m = tables d !! m) ∧
        games (joinRoom n nickname d).2 = games d).
Proof.
  rewrite joinRoom_lookup. destruct (tables d !! n) as [t|] eqn:Ht.
  - case_bool_decide as Hw; cbn [fst snd].
    + split; [|split].
      * split; [eauto|done].
      * done.
      * intros t' [= <-] _. rewrite tables_update_rows, Ht.
        split; [unfold set_player2; cbn [fmap option_fmap option_map];
                by rewrite Hw|].
        split; [|done]. intros m Hm. by apply tables_update_rows_ne.
    + split; [|split].
      * split; [done|]. by intros (t' & [= <-] & Hs).
      * done.
      * by intros t' [= <-] Hs.
  - split; [|split].
    + split; [done|]. by intros (t' & [=] & _).
    + done.
    + by intros t' [=].
Qed.

Lemma joinRoom_gate_witness :
  (joinRoom 5 (Some "Lee"%string)
     (createRoom (Some 5) (Some "Kim"%string) None hall).2).1 = Ack ∧
  tables (joinRoom 5 (Some "Lee"%string)
            (createRoom (Some 5) (Some "Kim"%string) None hall).2).2 !! 5
    = Some {| status := waiting;
              player1 := Some "Kim"%string; player2 := Some "Lee"%string;
              score1 := 0; score2 := 0;
              target1 := 25; target2 := 0;
              color1 := None; color2 := None;
              current_turn := None;
              inning := 0;
              start_time := None |} ∧
  joinRoom 5 (Some "Lee"%string) hall = (InvalidState, hall) ∧
  joinRoom 5 (Some "Park"%string) playing = (InvalidState, playing).
Proof.
  destruct (joinRoom_gate 5 (Some "Lee"%string)
              (createRoom (Some 5) (Some "Kim"%string) None hall).2)
    as ([_ Hack] & _ & Hrow).
  destruct (Hrow (Table waiting (Some "Kim"%string) None 0 0 25 0
                    None None None 0 None)) as (Hrow5 & _);
    [by vm_compute|done|].
  destruct (joinRoom_gate 5 (Some "Lee"%string) hall) as (_ & Hidle & _).
  destruct (joinRoom_gate 5 (Some "Park"%string) playing) as (_ & Hbusy & _).
  split.
  - apply Hack. eexists. split; [by vm_compute|done].
  - split; [exact Hrow5|]. split; [by apply Hidle|by apply Hbusy].
Defined.

(** X2: a join request is overwritten by the next one: after two joinRoom
    calls for the same table only the second nickname is left, as if the
    first call had never been made. *)
Theorem joinRoom_last_wins (n : Z) (a b : option string) (d : db) :
  joinRoom n b (joinRoom n a d).2 = joinRoom n b d.
Proof.
  rewrite (joinRoom_lookup n a d). destruct (tables d !! n) as [t|] eqn:Ht.
  - case_bool_decide as Hw; cbn [snd]; [|done].
    rewrite !joinRoom_lookup, tables_update_rows, Ht. cbn.
    rewrite bool_decide_eq_true_2 by done.
    by rewrite update_rows_twice.
  - done.
Qed.



(** ** Requests for a table that does not exist, continued *)

(** X4: for a table number that is not in the store, approveJoin, setColors
    and cancelRoom still answer with success, setColors even naming a
    starter, while joinRoom answers 400; none of them changes the database. *)
Theorem missing_table_silent (n : Z) (target : option Z)
    (c1 c2 nickname : option string) (now : Z) (d : db) :
  tables d !! n = None →
  approveJoin n target d = (Ack, d) ∧
  (∃ starter, setColors n c1 c2 now d = (Started starter, d)) ∧
  cancelRoom n d = (Ack, d) ∧
  joinRoom n nickname d = (InvalidState, d).
Proof.
  intros Hnone. unfold approveJoin, setColors, cancelRoom, joinRoom.
  rewrite !(update_rows_absent d n) by done.
  rewrite (select_rows_None d n Hnone). eauto.
Qed.

Lemma missing_table_silent_witness :
  approveJoin 7 (Some 20) playing = (Ack, playing) ∧
  (∃ starter,
     setColors 7 None (Some "white"%string) 1700000000 playing
       = (Started starter, playing)) ∧
  cancelRoom 7 playing = (Ack, playing) ∧
  joinRoom 7 (Some "Lee"%string) playing = (InvalidState, playing).
Proof.
  apply (missing_table_silent 7 (Some 20) None (Some "white"%string)
           (Some "Lee"%string) 1700000000 playing).
  by vm_compute.
Defined.

(** ** What no request does *)

Lemma handle_other_table (o : op) (d : db) (m : Z) :
  op_table o ≠ Some m →
  tables (handle o d).2 !! m = tables d !! m.
Proof.
  intros Hm.
  assert (Hupd : ∀ set n, Some n ≠ Some m →
            tables (update_rows set n d) !! m = tables d !! m).
  { intros set n Hn. apply tables_update_rows_ne. congruence. }
  destruct o as [n nick tg|n nick|n tg|n c1 c2 now|n sc|n|n|n];
    cbn [handle op_table] in *.
  - unfold createRoom. destruct (_ || _) eqn:Hmiss; [done|].
    destruct n as [n|]; [|done]. cbn [default].
    destruct (select_rows _ _); [done|]. case_bool_decide; [done|].
    by apply Hupd.
  - unfold joinRoom. destruct (select_rows _ _); [done|].
    case_bool_decide; [done|]. by apply Hupd.
  - by apply Hupd.
  - by apply Hupd.
  - unfold updateScore. destruct (head _); [|done]. by apply Hupd.
  - unfold nextTurn. destruct (head _) as [t|]; [|done].
    destruct (score1 t >=? target1 t); [done|].
    destruct (score2 t >=? target2 t); [done|]. by apply Hupd.
  - unfold endGame. destruct (head _); [|done]. by apply Hupd.
  - by apply Hupd.
Qed.

Lemma handle_dom (o : op) (d : db) :
  dom (tables (handle o d).2) = dom (tables d).
Proof.
  assert (Hupd : ∀ set n, dom (tables (update_rows set n d)) = dom (tables d)).
  { intros. apply dom_alter_L. }
  destruct o as [n nick tg|n nick|n tg|n c1 c2 now|n sc|n|n|n]; cbn [handle].
  - unfold createRoom. destruct (_ || _); [done|].
    destruct (select_rows _ _); [done|]. case_bool_decide; [done|apply Hupd].
  - unfold joinRoom. destruct (select_rows _ _); [done|].
    case_bool_decide; [done|apply Hupd].
  - apply Hupd.
  - apply Hupd.
  - unfold updateScore. destruct (head _); [apply Hupd|done].
  - unfold nextTurn. destruct (head _) as [t|]; [|done].
    destruct (score1 t >=? target1 t); [done|].
    destruct (score2 t >=? target2 t); [done|apply Hupd].
  - unfold endGame. destruct (head _); [|done]. cbn [snd].
    apply dom_alter_L.
  - apply Hupd.
Qed.

(** X5: a sequence of requests, none of which names table [m], leaves the
    row of table [m] exactly as it was. *)
Theorem run_other_table (ops : list op) (d : db) (m : Z) :
  Forall (λ o, op_table o ≠ Some m) ops →
  tables (run ops d) !! m = tables d !! m.
Proof.
  intros Hops. revert d. induction Hops as [|o ops Ho _ IH]; intros d; [done|].
  cbn [run]. rewrite IH. by apply handle_other_table.
Qed.

Lemma run_other_table_witness :
  tables
    (run [ SetColors 5 (Some "red"%string) (Some "white"%string) 1700000000;
           UpdateScore 5 20; EndGame 5 ] pending) !! 1
    = tables pending !! 1.
Proof.
  apply run_other_table. repeat constructor; by vm_compute.
Defined.

(** X6: no request adds or removes a table: after any sequence of requests
    the store holds the same table numbers as before. *)
Theorem run_same_tables (ops : list op) (d : db) :
  dom (tables (run ops d)) = dom (tables d).
Proof.
  revert d. induction ops as [|o ops IH]; intros d; [done|].
  cbn [run]. by rewrite IH, handle_dom.
Qed.

(** ** The game log *)

(** One request either leaves the log alone or, when it is an endGame for
    an existing table, appends one record whose winner is one of its two
    players. *)
Lemma handle_games (o : op) (d : db) :
  if ends_game d o
  then ∃ g, games (handle o d).2 = games d ++ [g] ∧ winner_played g
  else games (handle o d).2 = games d.
Proof.
  destruct o as [n nick tg|n nick|n tg|n c1 c2 now|n sc|n|n|n];
    cbn [handle ends_game].
  - unfold createRoom. destruct (_ || _); [done|].
    destruct (select_rows _ _); [done|]. by case_bool_decide.
  - unfold joinRoom. destruct (select_rows _ _); [done|]. by case_bool_decide.
  - done.
  - done.
  - unfold updateScore. by destruct (head _).
  - unfold nextTurn. destruct (head _) as [t|]; [|done].
    destruct (score1 t >=? target1 t); [done|].
    by destruct (score2 t >=? target2 t).
  - unfold endGame. rewrite head_select_rows.
    destruct (tables d !! n) as [t|] eqn:Ht.
    + rewrite bool_decide_eq_true_2 by done. cbn [snd].
      eexists. split; [reflexivity|]. unfold winner_played. cbn.
      destruct (score1 t >=? target1 t); auto.
    + rewrite bool_decide_eq_false_2; [done|]. by intros [? ?].
  - done.
Qed.

Lemma ends_game_handle (o o' : op) (d : db) :
  ends_game (handle o d).2 o' = ends_game d o'.
Proof.
  destruct o' as [| | | | | |n|]; try done. cbn [ends_game].
  apply bool_decide_ext. rewrite <- !elem_of_dom. by rewrite handle_dom.
Qed.

(** X7: the game log only grows, and only through endGame: after any
    sequence of requests the old log is a prefix of the new one, and the
    number of records added is the number of endGame requests in the
    sequence that name an existing table. *)
Theorem run_games_append_only (ops : list op) (d : db) :
  games d `prefix_of` games (run ops d) ∧
  length (games (run ops d))
    = (length (games d) + length (filter (λ o, ends_game d o = true) ops))%nat.
Proof.
  revert d. induction ops as [|o ops IH]; intros d.
  - cbn. split; [done|lia].
  - cbn [run]. destruct (IH (handle o d).2) as [Hpre Hlen].
    assert (Hsame : filter (λ o', ends_game (handle o d).2 o' = true) ops
                    = filter (λ o', ends_game d o' = true) ops).
    { apply list_filter_iff. intros o'. by rewrite ends_game_handle. }
    rewrite Hlen, Hsame. pose proof (handle_games o d) as Hg.
    rewrite filter_cons. destruct (ends_game d o) eqn:Ho.
    + destruct Hg as (g & Hg & _). rewrite decide_True by done.
      split.
      * etrans; [|exact Hpre]. rewrite Hg. by apply prefix_app_r.
      * rewrite Hg, length_app. cbn. lia.
    + rewrite decide_False by done. rewrite Hg in *. done.
Qed.

(** In every record that the requests append, the winner is one of the
    record's two players; the records already in the log are kept. *)
Theorem run_winner_played (ops : list op) (d : db) :
  Forall winner_played (games d) →
  Forall winner_played (games (run ops d)).
Proof.
  revert d. induction ops as [|o ops IH]; intros d Hd; [done|].
  cbn [run]. apply IH. pose proof (handle_games o d) as Hg.
  destruct (ends_game d o).
  - destruct Hg as (g & -> & Hw). apply Forall_app. by split; [|constructor].
  - by rewrite Hg.
Qed.

Lemma run_winner_played_witness :
  Forall winner_played
    (games (run [ EndGame 5; CreateRoom (Some 5) (Some "Park"%string) None;
                  EndGame 5; EndGame 7 ] playing)).
Proof. apply run_winner_played. vm_compute. constructor. Defined.

(** ** Invariants of the rows *)

(** A property of rows holds of all rows after an update when the SET
    clause keeps it on the row it rewrites. *)
Lemma update_rows_Forall (P : table → Prop) (set : table → table) (n : Z)
    (d : db) :
  map_Forall (λ _ t, P t) (tables d) →
  (∀ t, tables d !! n = Some t → P t → P (set t)) →
  map_Forall (λ _ t, P t) (tables (update_rows set n d)).
Proof.
  intros Hd Hset m t'. destruct (decide (n = m)) as [<-|Hne].
  - rewrite tables_update_rows. destruct (tables d !! n) as [t|] eqn:Ht; [|done].
    intros [= <-]. apply Hset; [done|]. by apply (Hd n).
  - rewrite tables_update_rows_ne by done. apply Hd.
Qed.

Lemma missing_str_false (o : option string) :
  missing_str o = false → ∃ s, o = Some s ∧ s ≠ ""%string.
Proof.
  destruct o as [s|]; [|done]. cbn. intros Hs%bool_decide_eq_false. eauto.
Qed.

Lemma occupied_started_handle (o : op) (d : db) :
  occupied_started d → occupied_started (handle o d).2.
Proof.
  intros Hd. unfold occupied_started in *.
  destruct o as [n nick tg|n nick|n tg|n c1 c2 now|n sc|n|n|n]; cbn [handle].
  - unfold createRoom. destruct (_ || _); [done|].
    destruct (select_rows _ _); [done|]. case_bool_decide; [done|].
    by apply update_rows_Forall.
  - unfold joinRoom. destruct (select_rows _ _); [done|].
    case_bool_decide; [done|]. by apply update_rows_Forall.
  - by apply update_rows_Forall.
  - apply update_rows_Forall; [done|]. intros t _ _ _.
    repeat split; cbn; eauto; lia.
  - unfold updateScore. destruct (head _) as [row0|]; [|done].
    apply update_rows_Forall; [done|]. by case_bool_decide.
  - unfold nextTurn. rewrite head_select_rows.
    destruct (tables d !! n) as [t|] eqn:Ht; [|done].
    destruct (score1 t >=? target1 t); [done|].
    destruct (score2 t >=? target2 t); [done|].
    apply update_rows_Forall; [done|]. intros t' Ht' Hst Hocc.
    assert (t' = t) as -> by congruence.
    destruct (Hst Hocc) as (_ & Hstart & Hinn).
    repeat split; cbn; eauto. repeat case_bool_decide; lia.
  - unfold endGame. destruct (head _); [|done].
    by apply update_rows_Forall.
  - by apply update_rows_Forall.
Qed.

Lemma waiting_hosted_handle (o : op) (d : db) :
  waiting_hosted d → waiting_hosted (handle o d).2.
Proof.
  intros Hd. unfold waiting_hosted in *.
  destruct o as [n nick tg|n nick|n tg|n c1 c2 now|n sc|n|n|n]; cbn [handle].
  - unfold createRoom. destruct (_ || _) eqn:Hmiss; [done|].
    apply orb_false_elim in Hmiss as [_ Hnick].
    destruct (select_rows _ _) as [|row0 rows]; [done|].
    case_bool_decide; [done|].
    apply update_rows_Forall; [done|]. intros t _ _ _.
    by destruct (missing_str_false nick Hnick) as (s & -> & Hs).
  - unfold joinRoom. destruct (select_rows _ _); [done|].
    case_bool_decide; [done|]. by apply update_rows_Forall.
  - by apply update_rows_Forall.
  - by apply update_rows_Forall.
  - unfold updateScore. destruct (head _) as [row0|]; [|done].
    apply update_rows_Forall; [done|]. by case_bool_decide.
  - unfold nextTurn. destruct (head _) as [t|]; [|done].
    destruct (score1 t >=? target1 t); [done|].
    destruct (score2 t >=? target2 t); [done|].
    by apply update_rows_Forall.
  - unfold endGame. destruct (head _); [|done].
    by apply update_rows_Forall.
  - by apply update_rows_Forall.
Qed.

(** X8: whatever requests are served and in whatever order, a table whose
    status is occupied has a current turn, a start time and an inning of
    at least 1, if that was so at the start. *)
Theorem run_occupied_started (ops : list op) (d : db) :
  occupied_started d → occupied_started (run ops d).
Proof.
  revert d. induction ops as [|o ops IH]; intros d Hd; [done|].
  cbn [run]. by apply IH, occupied_started_handle.
Qed.

Lemma run_occupied_started_witness :
  occupied_started
    (run [ SetColors 1 None None 1700000000; UpdateScore 1 9; NextTurn 1;
           CreateRoom (Some 5) (Some "Kim"%string) None;
           SetColors 5 (Some "white"%string) (Some "white"%string) 1700000100;
           NextTurn 5; NextTurn 5 ] hall).
Proof.
  apply run_occupied_started.
  apply (bool_decide_unpack (occupied_started hall)). vm_compute. exact I.
Defined.

(** X9: whatever requests are served and in whatever order, a table whose
    status is waiting has a player1 with a non-empty nickname, if that was
    so at the start. *)
Theorem run_waiting_hosted (ops : list op) (d : db) :
  waiting_hosted d → waiting_hosted (run ops d).
Proof.
  revert d. induction ops as [|o ops IH]; intros d Hd; [done|].
  cbn [run]. by apply IH, waiting_hosted_handle.
Qed.

Lemma run_waiting_hosted_witness :
  waiting_hosted
    (run [ CreateRoom (Some 5) (Some "Kim"%string) None;
           JoinRoom 5 None; ApproveJoin 5 None; UpdateScore 5 3; NextTurn 5;
           CreateRoom (Some 1) (Some ""%string) None ] hall).
Proof.
  apply run_waiting_hosted.
  apply (bool_decide_unpack (waiting_hosted hall)). vm_compute. exact I.
Defined.

(** ** How the status moves *)

(** X10: one request changes the status of a table in three ways only:
    createRoom takes an available table to waiting, setColors takes a table
    to occupied, endGame and cancelRoom take it to available; joinRoom,
    approveJoin, updateScore and nextTurn never change a status. *)
Theorem status_moves (o : op) (d : db) (n : Z) (t t' : table) :
  tables d !! n = Some t →
  tables (handle o d).2 !! n = Some t' →
  status t' ≠ status t →
  (∃ nick tg, o = CreateRoom (Some n) nick tg ∧
              status t = available ∧ status t' = waiting) ∨
  (∃ c1 c2 now, o = SetColors n c1 c2 now ∧ status t' = occupied) ∨
  ((o = EndGame n ∨ o = CancelRoom n) ∧ status t' = available).
Proof.
  intros Ht Ht' Hmove.
  destruct (decide (op_table o = Some n)) as [Hn|Hn].
  2: { rewrite handle_other_table in Ht' by done. congruence. }
  assert (Hkeep : tables d !! n = Some t' → False) by congruence.
  destruct o as [m nick tg|m nick|m tg|m c1 c2 now|m sc|m|m|m];
    cbn [op_table] in Hn; simplify_eq; cbn [handle] in Ht'; revert Ht'.
  - intros Ht'. left. exists nick, tg. split; [done|]. revert Ht'.
    unfold createRoom. destruct (_ || _); cbn [snd]; [done|].
    change (default 0 (Some n)) with n.
    rewrite (select_rows_Some d n t Ht).
    case_bool_decide as Hav; cbn [snd]; [done|].
    rewrite tables_update_rows, Ht. intros [= <-].
    split; [by destruct (status t)|done].
  - rewrite joinRoom_lookup, Ht.
    case_bool_decide; cbn [snd]; [|done].
    rewrite tables_update_rows, Ht. intros [= <-]. done.
  - unfold approveJoin. cbn [snd].
    rewrite tables_update_rows, Ht. intros [= <-]. done.
  - intros Ht'. right. left. exists c1, c2, now. split; [done|]. revert Ht'.
    unfold setColors. cbn [snd]. rewrite tables_update_rows, Ht.
    by intros [= <-].
  - unfold updateScore. rewrite head_select_rows, Ht.
    cbn [snd]. rewrite tables_update_rows, Ht. intros [= <-].
    revert Hmove. by case_bool_decide.
  - unfold nextTurn. rewrite head_select_rows, Ht.
    destruct (score1 t >=? target1 t); cbn [snd]; [done|].
    destruct (score2 t >=? target2 t); cbn [snd]; [done|].
    rewrite tables_update_rows, Ht. intros [= <-]. done.
  - intros Ht'. right. right. split; [by left|]. revert Ht'. unfold endGame.
    rewrite head_select_rows, Ht. cbn [snd].
    rewrite tables_update_rows. cbn [insert_game tables]. rewrite Ht.
    by intros [= <-].
  - intros Ht'. right. right. split; [by right|]. revert Ht'.
    unfold cancelRoom. cbn [snd]. rewrite tables_update_rows, Ht.
    by intros [= <-].
Qed.

Lemma status_moves_witness :
  (∃ nick tg, CreateRoom (Some 5) (Some "Kim"%string) None
                = CreateRoom (Some 5) nick tg ∧
              status idle_table = available ∧
              status (set_room (Some "Kim"%string) 25 idle_table) = waiting) ∨
  (∃ c1 c2 now, CreateRoom (Some 5) (Some "Kim"%string) None
                  = SetColors 5 c1 c2 now ∧
                status (set_room (Some "Kim"%string) 25 idle_table) = occupied) ∨
  ((CreateRoom (Some 5) (Some "Kim"%string) None = EndGame 5 ∨
    CreateRoom (Some 5) (Some "Kim"%string) None = CancelRoom 5) ∧
   status (set_room (Some "Kim"%string) 25 idle_table) = available).
Proof.
  apply (status_moves (CreateRoom (Some 5) (Some "Kim"%string) None) hall 5
           idle_table (set_room (Some "Kim"%string) 25 idle_table));
    by vm_compute.
Defined.

(** ** Turns and innings *)







(** ** Scores *)

(** updateScore in terms of the row it finds. *)
Lemma updateScore_lookup (n : Z) (score : Z) (d : db) :
  updateScore n score d =
    match tables d !! n with
    | Some t =>
        (Ack,
         update_rows
           ((if bool_decide (current_turn t = Some Player1)
             then set_score1 else set_score2) score) n d)
    | None => (InternalError, d)
    end.
Proof. unfold updateScore. rewrite head_select_rows. done. Qed.

(** X13: updateScore replaces the score, it does not add to it, and it
    leaves the turn alone: two calls in a row for the same table leave the
    database that the second call alone would leave. *)
Theorem updateScore_last_wins (n : Z) (a b : Z) (d : db) :
  updateScore n b (updateScore n a d).2 = updateScore n b d.
Proof.
  rewrite (updateScore_lookup n a d).
  destruct (tables d !! n) as [t|] eqn:Ht; cbn [snd]; [|done].
  rewrite !updateScore_lookup, tables_update_rows, Ht. cbn [fmap option_fmap option_map].
  assert (Hturn : ∀ f : Z → table → table,
            f = set_score1 ∨ f = set_score2 →
            current_turn (f a t) = current_turn t).
  { by intros f [-> | ->]. }
  rewrite Hturn by (case_bool_decide; auto).
  rewrite update_rows_twice. f_equal. apply update_rows_ext. intros t' _.
  by repeat case_bool_decide.
Qed.

(** X14: a score that reaches the target of the player whose turn it is
    ends the game at the next nextTurn: for player1 always, and for
    player2, or with no turn set, unless player1 has reached the target
    already, in which case player1 is reported. *)
Theorem updateScore_then_nextTurn (n : Z) (score : Z) (d : db) (t : table) :
  tables d !! n = Some t →
  (current_turn t = Some Player1 → target1 t ≤ score →
   (nextTurn n (updateScore n score d).2).1 = GameOver Player1) ∧
  (current_turn t ≠ Some Player1 → score1 t < target1 t → target2 t ≤ score →
   (nextTurn n (updateScore n score d).2).1 = GameOver Player2) ∧
  (current_turn t ≠ Some Player1 → target1 t ≤ score1 t →
   (nextTurn n (updateScore n score d).2).1 = GameOver Player1).
Proof.
  intros Ht. rewrite updateScore_lookup, Ht. cbn [snd]. unfold nextTurn.
  rewrite head_select_rows, tables_update_rows, Ht.
  cbn [fmap option_fmap option_map].
  split; [|split].
  - intros Hturn Hscore. rewrite bool_decide_eq_true_2 by done. cbn.
    by rewrite geb_true.
  - intros Hturn H1 Hscore. rewrite bool_decide_eq_false_2 by done. cbn.
    by rewrite geb_false, geb_true.
  - intros Hturn H1. rewrite bool_decide_eq_false_2 by done. cbn.
    by rewrite geb_true.
Qed.

Lemma updateScore_then_nextTurn_witness :
  (nextTurn 5 (updateScore 5 25 playing).2).1 = GameOver Player1 ∧
  (nextTurn 5 (updateScore 5 21 pending).2).1 = GameOver Player2.
Proof.
  destruct (updateScore_then_nextTurn 5 25 playing
              (Table occupied (Some "Kim"%string) (Some "Lee"%string) 3 4 25 20
                 (Some "red"%string) (Some "white"%string) (Some Player1) 2
                 (Some 1700000000))) as (Hp1 & _); [by vm_compute|].
  destruct (updateScore_then_nextTurn 5 21 pending
              (Table waiting (Some "Kim"%string) (Some "Lee"%string) 0 0 25 20
                 None None None 0 None)) as (_ & Hp2 & _); [by vm_compute|].
  split; [apply Hp1|apply Hp2]; cbn; (done || lia).
Defined.

(** ** The life of a table *)

Lemma update_rows_same (set : table → table) (n : Z) (d : db) :
  (∀ t, tables d !! n = Some t → set t = t) → update_rows set n d = d.
Proof.
  intros Hset. destruct d as [tb gs]. unfold update_rows. cbn in *. f_equal.
  apply map_eq. intros m. destruct (decide (n = m)) as [<-|Hne].
  - rewrite lookup_alter_eq. destruct (tb !! n) as [t|] eqn:Ht; [|done].
    cbn. f_equal. by apply Hset.
  - by rewrite lookup_alter_ne.
Qed.

(** X15: opening a room on an idle table and cancelling it gives back the
    database one started from. *)
Theorem createRoom_cancelRoom (n : Z) (nick : string) (target : option Z)
    (d : db) :
  n ≠ 0 → nick ≠ ""%string →
  tables d !! n = Some idle_table →
  (createRoom (Some n) (Some nick) target d).1 = Ack ∧
  (cancelRoom n (createRoom (Some n) (Some nick) target d).2).2 = d.
Proof.
  intros Hn Hnick Hidle. rewrite createRoom_present, Hidle by done.
  cbn [status idle_table]. rewrite bool_decide_eq_false_2 by tauto.
  cbn [fst snd]. split; [done|]. unfold cancelRoom. cbn [snd].
  rewrite update_rows_twice. apply update_rows_same.
  intros t Ht. by assert (t = idle_table) as -> by congruence.
Qed.

Lemma createRoom_cancelRoom_witness :
  (createRoom (Some 5) (Some "Kim"%string) (Some 30) hall).1 = Ack ∧
  (cancelRoom 5 (createRoom (Some 5) (Some "Kim"%string) (Some 30) hall).2).2
    = hall.
Proof.
  apply (createRoom_cancelRoom 5 "Kim" (Some 30) hall); [lia|done|].
  by vm_compute.
Defined.

(** X16: a table is free again after endGame and after cancelRoom,
    whatever its state was: the next createRoom with a table number and a
    nickname succeeds and leaves a waiting row that holds the new host and
    target and nothing of the previous game. *)
Theorem table_reusable (n : Z) (nick : string) (target : option Z) (d : db)
    (t : table) :
  n ≠ 0 → nick ≠ ""%string →
  tables d !! n = Some t →
  (createRoom (Some n) (Some nick) target (endGame n d).2).1 = Ack ∧
  tables (createRoom (Some n) (Some nick) target (endGame n d).2).2 !! n
    = Some {| status := waiting;
              player1 := Some nick; player2 := None;
              score1 := 0; score2 := 0;
              target1 := default 25 target; target2 := 0;
              color1 := None; color2 := None;
              current_turn := None;
              inning := 0;
              start_time := None |} ∧
  (createRoom (Some n) (Some nick) target (cancelRoom n d).2).1 = Ack ∧
  tables (createRoom (Some n) (Some nick) target (cancelRoom n d).2).2 !! n
    = Some {| status := waiting;
              player1 := Some nick; player2 := None;
              score1 := 0; score2 := 0;
              target1 := default 25 target; target2 := 0;
              color1 := None; color2 := None;
              current_turn := None;
              inning := 0;
              start_time := None |}.
Proof.
  intros Hn Hnick Ht.
  assert (Hend : tables (endGame n d).2 !! n = Some idle_table).
  { unfold endGame. rewrite head_select_rows, Ht. cbn [snd].
    rewrite tables_update_rows. cbn [insert_game tables]. by rewrite Ht. }
  assert (Hcancel : tables (cancelRoom n d).2 !! n = Some idle_table).
  { unfold cancelRoom. cbn [snd]. by rewrite tables_update_rows, Ht. }
  rewrite !createRoom_present by done. rewrite Hend, Hcancel.
  cbn [status idle_table]. rewrite bool_decide_eq_false_2 by tauto.
  cbn [fst snd]. rewrite !tables_update_rows, Hend, Hcancel. done.
Qed.

Lemma table_reusable_witness :
  (createRoom (Some 5) (Some "Park"%string) None (endGame 5 playing).2).1 = Ack ∧
  tables (createRoom (Some 5) (Some "Park"%string) None
            (endGame 5 playing).2).2 !! 5
    = Some (Table waiting (Some "Park"%string) None 0 0 25 0
              None None None 0 None) ∧
  (createRoom (Some 5) (Some "Park"%string) None (cancelRoom 5 playing).2).1
    = Ack ∧
  tables (createRoom (Some 5) (Some "Park"%string) None
            (cancelRoom 5 playing).2).2 !! 5
    = Some (Table waiting (Some "Park"%string) None 0 0 25 0
              None None None 0 None).
Proof.
  apply (table_reusable 5 "Park" None playing
           (Table occupied (Some "Kim"%string) (Some "Lee"%string) 3 4 25 20
              (Some "red"%string) (Some "white"%string) (Some Player1) 2
              (Some 1700000000))); [lia|done|by vm_compute].
Defined.

(** X17: endGame does not look at the status either: on an idle table it
    succeeds, leaves the tables as they are and appends a record without
    players, with both scores 0 and with no winner and no start time. *)
Theorem endGame_idle_table (n : Z) (d : db) :
  tables d !! n = Some idle_table →
  endGame n d =
    (Ack,
     {| tables := tables d;
        games := games d ++
          [ {| game_table_num := n;
               game_player1 := None; game_player2 := None;
               game_score1 := 0; game_score2 := 0;
               game_winner := None;
               game_start_time := None |} ] |}).
Proof.
  intros Hidle. unfold endGame. rewrite head_select_rows, Hidle.
  cbn -[update_rows]. f_equal. apply update_rows_same.
  intros t Ht. cbn in Ht. by assert (t = idle_table) as -> by congruence.
Qed.

Lemma endGame_idle_table_witness :
  endGame 1 hall =
    (Ack,
     {| tables := tables hall;
        games := [ Game 1 None None 0 0 None None ] |}).
Proof. apply (endGame_idle_table 1 hall). by vm_compute. Defined.

(** ** Reading the tables *)

#[local] Instance by_table_num_trans : Transitive by_table_num.
Proof. intros a b c. unfold by_table_num. lia. Qed.

#[local] Instance by_table_num_total : Total by_table_num.
Proof. intros a b. unfold by_table_num. lia. Qed.

(** A list ordered by table number in which no number comes twice is in
    strictly increasing order. *)
Lemma sorted_distinct_increasing (l : list (Z * table)) :
  StronglySorted by_table_num l → NoDup l.*1 →
  StronglySorted Z.lt l.*1.
Proof.
  induction 1 as [|a l Hl IH Ha]; intros Hnodup; [constructor|].
  cbn in *. apply NoDup_cons in Hnodup as [Hfresh Hnodup].
  constructor; [by apply IH|].
  apply Forall_fmap, Forall_forall. intros b Hb. cbn.
  rewrite Forall_forall in Ha. specialize (Ha b Hb). unfold by_table_num in Ha.
  assert (a.1 ≠ b.1); [|lia].
  intros Heq. apply Hfresh. rewrite Heq. by apply list_elem_of_fmap_2.
Qed.

Lemma elem_of_getTables (n : Z) (t : table) (d : db) :
  (n, t) ∈ getTables d ↔ tables d !! n = Some t.
Proof.
  unfold getTables. rewrite merge_sort_Permutation.
  apply elem_of_map_to_list.
Qed.

(** X18: getTables lists the rows of the store and nothing else, each one
    once, in strictly increasing table number. *)
Theorem getTables_sorted_complete (d : db) :
  (∀ n t, (n, t) ∈ getTables d ↔ tables d !! n = Some t) ∧
  StronglySorted Z.lt (getTables d).*1 ∧
  length (getTables d) = size (tables d).
Proof.
  split; [intros; apply elem_of_getTables|]. split.
  - apply sorted_distinct_increasing.
    + apply (StronglySorted_merge_sort by_table_num).
    + unfold getTables. rewrite merge_sort_Permutation.
      apply NoDup_fst_map_to_list.
  - unfold getTables. rewrite merge_sort_Permutation.
    apply length_map_to_list.
Qed.

(** X19: getGameState answers 404 exactly for the table numbers that
    getTables does not list, and for the others it returns the very row
    that getTables lists under that number. *)
Theorem getGameState_agrees_getTables (n : Z) (d : db) :
  (getGameState n d = GameStateNotFound ↔ n ∉ (getTables d).*1) ∧
  (∀ t, getGameState n d = GameState n t ↔ (n, t) ∈ getTables d).
Proof.
  unfold getGameState, select_rows. split.
  - rewrite list_elem_of_fmap. split.
    + intros Hnone ([m t] & -> & Hin%elem_of_getTables). cbn in *.
      by rewrite Hin in Hnone.
    + intros Hnot. destruct (tables d !! n) as [t|] eqn:Ht; [|done].
      destruct Hnot. exists (n, t). split; [done|]. by apply elem_of_getTables.
  - intros t. rewrite elem_of_getTables.
    destruct (tables d !! n) as [t'|]; cbn; split; congruence.
Qed.

(** ** Registering and logging in *)

Section users.

Context (same_nickname : string → string → bool) (wins0 losses0 : Z).

Abbreviation select_users := (select_users same_nickname).
Abbreviation register := (register same_nickname wins0 losses0).
Abbreviation register_all := (register_all same_nickname wins0 losses0).
Abbreviation login := (login same_nickname).
Abbreviation unique_nicknames := (unique_nicknames same_nickname).

(** register once the nickname has passed the length check. *)
Lemma register_checked (nick : string) (target : option Z) (us : list user) :
  (2 ≤ String.length nick ≤ 10)%nat →
  register (Some nick) target us =
    match select_users us nick with
    | [] =>
        (Registered (User nick (default 25 target) 0 0),
         us ++ [User nick (default 25 target) wins0 losses0])
    | _ :: _ => (DuplicateNickname, us)
    end.
Proof.
  intros Hlen. unfold register, missing_str.
  change (default ""%string (Some nick)) with nick.
  rewrite bool_decide_eq_false_2 by (intros ->; cbn in Hlen; lia).
  assert ((Z.of_nat (String.length nick) <? 2) = false) as ->
    by (apply Z.ltb_ge; lia).
  assert ((Z.of_nat (String.length nick) >? 10) = false) as ->
    by (rewrite Z.gtb_ltb; apply Z.ltb_ge; lia).
  cbn [orb]. by destruct (select_users us nick).
Qed.

Lemma register_nickname_length_aux (nick : string) (target : option Z)
    (us : list user) :
  ¬ (2 ≤ String.length nick ≤ 10)%nat →
  register (Some nick) target us = (BadNickname, us).
Proof.
  intros Hlen. unfold register. change (default ""%string (Some nick)) with nick.
  destruct (decide (String.length nick < 2)%nat).
  - assert ((Z.of_nat (String.length nick) <? 2) = true) as ->
      by (apply Z.ltb_lt; lia).
    by rewrite orb_true_r.
  - assert ((Z.of_nat (String.length nick) >? 10) = true) as ->
      by (rewrite Z.gtb_ltb; apply Z.ltb_lt; lia).
    by rewrite orb_true_r.
Qed.

(** X20: register refuses, with the 400 reply and without touching the
    user store, exactly the requests whose nickname is absent or is
    shorter than 2 or longer than 10. *)
Theorem register_nickname_length (nickname : option string)
    (target : option Z) (us : list user) :
  ((register nickname target us).1 = BadNickname ↔
   ∀ nick, nickname = Some nick → ¬ (2 ≤ String.length nick ≤ 10)%nat) ∧
  ((register nickname target us).1 = BadNickname →
   (register nickname target us).2 = us).
Proof.
  destruct nickname as [nick|]; [|by split; [split|]].
  destruct (decide (2 ≤ String.length nick ≤ 10)%nat) as [Hlen|Hlen].
  - rewrite register_checked by done.
    destruct (select_users us nick); cbn [fst snd].
    + split; [split|]; [done| |done]. intros Hall. by destruct (Hall nick).
    + split; [split|]; [done| |done]. intros Hall. by destruct (Hall nick).
  - rewrite register_nickname_length_aux by done. cbn [fst snd]. split; [split|]; [|done..].
    intros _ nick' [= <-]. done.
Qed.

Lemma select_users_app (us vs : list user) (nick : string) :
  select_users (us ++ vs) nick = select_users us nick ++ select_users vs nick.
Proof. apply filter_app. Qed.

(** X21: a nickname that register has just accepted can log in, and login
    returns the nickname and the target that were registered (25 when no
    target was sent), with the defaults of the wins and losses columns;
    a second register with that nickname is refused as a duplicate and
    leaves the user store alone. A nickname is taken to match itself. *)
Theorem register_then_login (nick : string) (target : option Z)
    (us : list user) (u : user) :
  (∀ a, same_nickname a a = true) →
  (register (Some nick) target us).1 = Registered u →
  let us' := (register (Some nick) target us).2 in
  u = User nick (default 25 target) 0 0 ∧
  login (Some nick) us' = LoggedIn (User nick (default 25 target) wins0 losses0) ∧
  register (Some nick) target us' = (DuplicateNickname, us').
Proof.
  intros Hrefl Hreg us'. subst us'.
  destruct (decide (2 ≤ String.length nick ≤ 10)%nat) as [Hlen|Hlen].
  2: { by rewrite (register_nickname_length_aux nick target us Hlen) in Hreg. }
  revert Hreg. rewrite (register_checked nick target us Hlen).
  destruct (select_users us nick) as [|row rows] eqn:Hsel; [|done].
  cbn [fst snd]. intros [= <-]. split; [done|].
  assert (Hsel' : select_users (us ++ [User nick (default 25 target) wins0 losses0])
                    nick = [User nick (default 25 target) wins0 losses0]).
  { rewrite select_users_app, Hsel. unfold Billiard.select_users.
    rewrite filter_cons, decide_True by apply Hrefl. done. }
  split.
  - unfold login, missing_str. change (default ""%string (Some nick)) with nick.
    rewrite bool_decide_eq_false_2 by (intros ->; cbn in Hlen; lia).
    by rewrite Hsel'.
  - by rewrite register_checked, Hsel'.
Qed.

(** What register leaves in the user store. *)
Lemma register_store (nickname : option string) (target : option Z)
    (us : list user) :
  (register nickname target us).2 = us ∨
  ∃ nick, nickname = Some nick ∧ select_users us nick = [] ∧
          (register nickname target us).2
            = us ++ [User nick (default 25 target) wins0 losses0].
Proof.
  destruct nickname as [nick|]; [|by left].
  destruct (decide (2 ≤ String.length nick ≤ 10)%nat) as [Hlen|Hlen].
  - rewrite register_checked by done.
    destruct (select_users us nick) eqn:Hsel; [|by left].
    right. by exists nick.
  - left. by rewrite register_nickname_length_aux.
Qed.

Lemma unique_nicknames_register (nickname : option string)
    (target : option Z) (us : list user) :
  (∀ a b, same_nickname a b = same_nickname b a) →
  unique_nicknames us →
  unique_nicknames (register nickname target us).2.
Proof.
  intros Hsym Hus.
  destruct (register_store nickname target us) as [->|(nick & _ & Hsel & ->)];
    [done|].
  assert (Hfresh : ∀ k w, us !! k = Some w →
            same_nickname (user_nickname w) nick = true → False).
  { intros k w Hw Hmatch.
    apply (filter_nil_not_elem_of _ _ w Hsel); [done|].
    by eapply list_elem_of_lookup_2. }
  intros i j u v Hu Hv Hsame.
  apply lookup_app_Some in Hu as [Hu|[Hi Hu]];
    apply lookup_app_Some in Hv as [Hv|[Hj Hv]].
  - by apply (Hus i j u v).
  - apply list_lookup_singleton_Some in Hv as [_ <-]. cbn in Hsame.
    destruct (Hfresh i u Hu Hsame).
  - apply list_lookup_singleton_Some in Hu as [_ <-]. cbn in Hsame.
    rewrite Hsym in Hsame. destruct (Hfresh j v Hv Hsame).
  - apply list_lookup_singleton_Some in Hu as [Hu _].
    apply list_lookup_singleton_Some in Hv as [Hv _]. lia.
Qed.

(** X22: register never stores a nickname twice: if no two rows of the
    user store have matching nicknames, this is still so after any
    sequence of register requests. Matching is taken to be symmetric. *)
Theorem register_all_unique (reqs : list (option string * option Z))
    (us : list user) :
  (∀ a b, same_nickname a b = same_nickname b a) →
  unique_nicknames us →
  unique_nicknames (register_all reqs us).
Proof.
  intros Hsym. revert us.
  induction reqs as [|[nickname target] reqs IH]; intros us Hus; [done|].
  cbn [register_all]. by apply IH, unique_nicknames_register.
Qed.

(** X23: login answers 400 exactly when the nickname is absent or empty,
    404 exactly when a nickname is sent and no row of the user store
    matches it, and otherwise returns a row of the store that matches. *)
Theorem login_outcome (nickname : option string) (us : list user) :
  match login nickname us with
  | LoggedIn u =>
      ∃ nick, nickname = Some nick ∧ nick ≠ ""%string ∧
              u ∈ us ∧ same_nickname (user_nickname u) nick = true
  | UnknownNickname =>
      ∃ nick, nickname = Some nick ∧ nick ≠ ""%string ∧
              Forall (λ u, same_nickname (user_nickname u) nick = false) us
  | BadNickname => nickname = None ∨ nickname = Some ""%string
  | Registered _ | DuplicateNickname => False
  end.
Proof.
  unfold login. destruct nickname as [nick|]; cbn [missing_str]; [|by left].
  case_bool_decide as Hnick; [right; by subst|].
  change (default ""%string (Some nick)) with nick.
  destruct (select_users us nick) as [|row0 rows] eqn:Hsel.
  - exists nick. split; [done|]. split; [done|].
    apply Forall_forall. intros u Hu.
    destruct (same_nickname (user_nickname u) nick) eqn:Hmatch; [|done].
    by destruct (filter_nil_not_elem_of _ _ u Hsel).
  - exists nick. split; [done|]. split; [done|].
    assert (Hin : row0 ∈ select_users us nick) by (rewrite Hsel; left).
    apply list_elem_of_filter in Hin as [Hmatch Hin]. done.
Qed.

End users.

(** ** Sample users *)

Lemma register_then_login_witness :
  login String.eqb (Some "Kim"%string)
    (register String.eqb 0 0 (Some "Kim"%string) None []).2
    = LoggedIn (User "Kim" 25 0 0) ∧
  register String.eqb 0 0 (Some "Kim"%string) None
    (register String.eqb 0 0 (Some "Kim"%string) None []).2
    = (DuplicateNickname, [User "Kim" 25 0 0]).
Proof.
  destruct (register_then_login String.eqb 0 0 "Kim" None [] (User "Kim" 25 0 0))
    as (_ & Hlogin & Hagain); [apply String.eqb_refl|reflexivity|].
  split; [exact Hlogin|exact Hagain].
Defined.

Lemma register_all_unique_witness :
  unique_nicknames String.eqb
    (register_all String.eqb 0 0
       [ (Some "Kim"%string, None); (Some "Lee"%string, Some 20);
         (Some "Kim"%string, Some 30); (Some "K"%string, None) ] []).
Proof.
  apply register_all_unique; [apply String.eqb_sym|].
  intros i j u v Hu. by rewrite lookup_nil in Hu.
Defined.

Lemma register_nickname_length_witness :
  (register String.eqb 0 0 (Some "K"%string) None []).1 = BadNickname ∧
  (register String.eqb 0 0 (Some "Kim Min-jun"%string) None []).1 = BadNickname ∧
  (register String.eqb 0 0 (Some "Kim"%string) None []).1 ≠ BadNickname.
Proof.
  split; [|split].
  - apply (register_nickname_length String.eqb 0 0 (Some "K"%string) None []).
    intros nick [= <-]. cbn. lia.
  - apply (register_nickname_length String.eqb 0 0
             (Some "Kim Min-jun"%string) None []).
    intros nick [= <-]. cbn. lia.
  - destruct (register_nickname_length String.eqb 0 0 (Some "Kim"%string)
                None []) as [[Hshort _] _].
    intros Hbad. apply (Hshort Hbad "Kim"%string); [done|cbn; lia].
Defined.

End Billiard.
